(** * Schedule.jsx: the diary schedule renderer

    A shallow embedding of [js/src/components/pages/diary/Schedule.jsx]
    and the properties its specification states about it.

    The component walks a nested, tagged JSON tree and produces a React
    presentation tree.  JSON values are embedded as an inductive type,
    JS objects as finite maps from property names to values, thrown
    [TypeError]s as an error result, and the in-place update performed by
    [setIds] as explicit state passing: [Schedule] returns the document
    as it is after the call next to what was rendered. *)

From stdpp Require Import gmap strings list fin_maps pretty.

Set Warnings "-register-all".

(** ** JavaScript values *)

(** The values a parsed JSON document is made of.  An array carries, next
    to its elements, the one expando property the code reads from arrays
    ([row.id]); it is [VUndefined] until something assigns it.  Numbers are
    carried as integers: the renderer never computes with a number of the
    document, it only copies it. *)
Inductive value : Type :=
| VNull
| VUndefined
| VBool (b : bool)
| VNum (n : Z)
| VStr (s : string)
| VArr (id : value) (elems : list value)
| VObj (fields : gmap string value).

(** A JS computation either completes with a value or throws.  Every
    exception this module can raise is a [TypeError]. *)
Inductive result (A : Type) : Type :=
| Ok (a : A)
| TypeError.
Arguments Ok {A} a.
Arguments TypeError {A}.

#[global] Instance result_ret : MRet result := fun A a => Ok a.
#[global] Instance result_bind : MBind result := fun A B f m =>
  match m with
  | Ok a => f a
  | TypeError => TypeError
  end.

(** [v.key], for the property names the renderer reads ([type], [tag],
    [value], [id]); none of them is defined on a built-in prototype, so a
    primitive or an array without the property yields [undefined].
    Reading a property of [null] or [undefined] throws. *)
Definition get (v : value) (key : string) : result value :=
  match v with
  | VNull | VUndefined => TypeError
  | VObj fields => Ok (default VUndefined (fields !! key))
  | VArr id _ => Ok (if String.eqb key "id" then id else VUndefined)
  | VBool _ | VNum _ | VStr _ => Ok VUndefined
  end.

(** [v === 'lit'] for a string literal. *)
Definition is_str (v : value) (lit : string) : bool :=
  match v with
  | VStr s => String.eqb s lit
  | _ => false
  end.

(** [Array.isArray(v)] *)
Definition Array_isArray (v : value) : bool :=
  match v with
  | VArr _ _ => true
  | _ => false
  end.

(** The sequence an iterable yields: the elements of an array, the
    characters of a string; anything else is not iterable. *)
Definition iterate (v : value) : result (list value) :=
  match v with
  | VArr _ elems => Ok elems
  | VStr s => Ok (map (fun c => VStr (String c EmptyString)) (String.list_ascii_of_string s))
  | _ => TypeError
  end.

(** [const [head, ...rest] = json] *)
Definition destructure (json : value) : result (value * list value) :=
  elems ← iterate json;
  mret (match elems with
        | [] => (VUndefined, [])
        | head :: rest => (head, rest)
        end).

(** ** The presentation tree *)

(** A child of a text-like element: literal JSX text, an embedded
    expression [{e}], or the string [JSON.stringify(e)], kept symbolic.
    On the values above, finite trees without functions or cycles,
    [JSON.stringify] does not throw. *)
Inductive text_child : Type :=
| Lit (s : string)
| Expr (v : value)
| JSON_stringify (v : value).

(** The rendered tree.  The components imported from [./elements] and
    [../../elements] are leaves or containers of the tree; what this
    module's own components ([TopLevelPaper], [Header], [Field]) render is
    expanded in place.  [Keyed k e] is the element [e] created with
    [key={k}].  A fragment's children are listed flat, as React flattens an
    array child. *)
Inductive element : Type :=
| Loading
| ColumnList (children : list element)
| ColumnCard (header : value) (children : list element)
| Break
| ShrimpField (json : value)
| SummaryField (json : value)
| JupyterActivity (json : value)
| JupyterAllActivities (json : value)
| LinkButton (href : string) (children : list element)
| Text (children : list text_child)
| Grid (xs : nat) (className : option string) (children : list element)
| Typography (variant : string) (children : list text_child)
| Fragment (children : list element)
| Keyed (key : value) (e : element).

(** The class name [useStyles()] yields for the [grid] rule. *)
Definition classes_grid : string := "grid".

(** ** The id-assignment pass *)

(** Modelled from the spec: [setIds] of [../../functions], which is
    imported but not part of the sources at hand.  It "mutates every node
    in place to add a stable unique identifier" and is "idempotent if
    re-run on already-identified nodes".  The model stamps every record and
    every array of the tree (the renderer reads [row.id] from both) with the
    path of indices that leads to it, and returns the tree as it is after
    the in-place update.  Values that are neither are left alone. *)
Definition child_id (id : string) (index : nat) : string :=
  id +:+ "," +:+ pretty index.

Section Stamp.
Variable stamp : string → value → value.

(** The rows of the array identified by [id], from position [index] on. *)
Fixpoint stamp_rows (id : string) (index : nat) (rows : list value)
    : list value :=
  match rows with
  | [] => []
  | row :: rows' =>
      stamp (child_id id index) row :: stamp_rows id (S index) rows'
  end.
End Stamp.

Fixpoint setId (id : string) (json : value) : value :=
  match json with
  | VArr _ elems => VArr (VStr id) (stamp_rows setId id 0 elems)
  | VObj fields => VObj (<["id" := VStr id]> fields)
  | other => other
  end.

Definition setIds (json : value) : value := setId "0" json.

(** ** The renderer *)

Section Renderer.

(** The router history object handed down through the props. *)
Context {History : Type}.

(** [Field]: the leaf renderer (lines 78-95). *)
Definition Field (json : value) : result element :=
  type ← get json "type";
  if is_str type "value" then
    mret (SummaryField json)
  else if is_str type "link" then
    tag ← get json "tag";
    if is_str tag "health" then
      value ← get json "value";
      mret (LinkButton "api/jupyter/health" [Text [Expr value]])
    else if is_str tag "all-activities" then
      mret (JupyterAllActivities json)
    else
      mret (Grid 4 None [Text [Lit "Unsupported link: "; JSON_stringify json]])
  else
    mret (Grid 4 None [Text [Lit "Unsupported type: "; JSON_stringify json]]).

(** [childrenFromRest] (lines 33-48), over the renderer used for
    [<Header .../>]: the two functions are mutually recursive in the
    source, and the knot is tied in [Header] below.  Each [push] appends
    to the list that is returned. *)
Section Dispatch.
Variable Header : value → nat → History → result element.

Fixpoint childrenFromRest_with (head : value) (rest : list value)
    (level : nat) (history : History) : result (list element) :=
  match rest with
  | [] => mret []
  | row :: rest' =>
      pushed ←
        (if Array_isArray row then
           if is_str head "shrimp" then
             id ← get row "id";
             mret [Keyed id (ShrimpField row)]
           else
             id ← get row "id";
             section ← Header row level history;
             mret [Break; Keyed id section]
         else
           id ← get row "id";
           field ← Field row;
           mret [Keyed id field]);
      children ← childrenFromRest_with head rest' level history;
      mret (pushed ++ children)
  end.

(** The body of [Header] (lines 61-74) once [json] is destructured. *)
Definition Header_body (head : value) (rest : list value)
    (level : nat) (history : History) : result element :=
  tag ← get head "tag";
  children ←
    (if is_str tag "jupyter-activity" then
       mret [JupyterActivity (VArr VUndefined rest)]
     else
       childrenFromRest_with tag rest (level + 1) history);
  label ← get head "value";
  mret (Fragment
          (Grid 4 (Some classes_grid)
             [Typography ("h" +:+ pretty level) [Expr label]]
           :: children)).
End Dispatch.

(** [Header] (lines 59-75).  The recursion is on the array [json]; a
    string is the only other iterable, and what it yields holds no array,
    so no section is rendered below it. *)
Fixpoint Header (json : value) (level : nat) (history : History)
    : result element :=
  match json with
  | VArr _ [] => Header_body Header VUndefined [] level history
  | VArr _ (head :: rest) => Header_body Header head rest level history
  | other =>
      parts ← destructure other;
      Header_body (fun _ _ _ => TypeError) parts.1 parts.2 level history
  end.

Definition childrenFromRest : value → list value → nat → History
    → result (list element) :=
  childrenFromRest_with Header.

(** [TopLevelPaper] (lines 51-56). *)
Definition TopLevelPaper (json : value) (history : History)
    : result element :=
  parts ← destructure json;
  tag ← get parts.1 "tag";
  children ← childrenFromRest tag parts.2 3 history;
  header ← get parts.1 "value";
  mret (ColumnCard header children).

(** What a call of [Schedule] leaves behind and returns. *)
Record outcome : Type := Outcome {
  json_after : value;
  rendered : result element
}.

(** [json.slice(1).map(row => <TopLevelPaper json={row} key={row.id}/>)] *)
Fixpoint top_level_papers (rows : list value) (history : History)
    : result (list element) :=
  match rows with
  | [] => mret []
  | row :: rows' =>
      id ← get row "id";
      paper ← TopLevelPaper row history;
      papers ← top_level_papers rows' history;
      mret (Keyed id paper :: papers)
  end.

(** [Schedule] (lines 17-30).  Only an array has a [slice] whose result
    has a [map]. *)
Definition Schedule (json : value) (history : History) : outcome :=
  match json with
  | VNull => Outcome json (mret Loading)
  | _ =>
      let json' := setIds json in
      Outcome json'
        (match json' with
         | VArr _ elems =>
             papers ← top_level_papers (tail elems) history;
             mret (ColumnList papers)
         | _ => TypeError
         end)
  end.

End Renderer.



(** ** The data model of the specification *)

(** A HeadNode is a keyed record with a string [tag] and a string [value];
    a FieldNode is a keyed record. *)
Definition HeadNode (v : value) : bool :=
  match v with
  | VObj fields =>
      match fields !! "tag", fields !! "value" with
      | Some (VStr _), Some (VStr _) => true
      | _, _ => false
      end
  | _ => false
  end.

Definition FieldNode (v : value) : bool :=
  match v with
  | VObj _ => true
  | _ => false
  end.

(** A Subtree is an array that starts with a HeadNode and goes on with
    Subtrees and FieldNodes. *)
Fixpoint Subtree (v : value) : bool :=
  match v with
  | VArr _ (head :: rest) =>
      HeadNode head
      && forallb (fun e => if Array_isArray e then Subtree e else FieldNode e) rest
  | _ => false
  end.

(** A Document is an array of Subtrees. *)
Definition Document (v : value) : bool :=
  match v with
  | VArr _ rows => forallb Subtree rows
  | _ => false
  end.

(** The elements of an array, and the first of them. *)
Definition elems_of (v : value) : list value :=
  match v with
  | VArr _ elems => elems
  | _ => []
  end.

Definition head_of (v : value) : value :=
  match v with
  | VArr _ (head :: _) => head
  | _ => VUndefined
  end.

(** The tree with every identifier that [setIds] writes taken out: what is
    left is all that the pass does not touch. *)
Fixpoint erase_ids (json : value) : value :=
  match json with
  | VArr _ elems => VArr VUndefined (map erase_ids elems)
  | VObj fields => VObj (delete "id" fields)
  | other => other
  end.

(** The tree carries its identifiers: every array, and every record that
    is an element of an array or the tree itself, has a string [id]. *)
Fixpoint identified (json : value) : bool :=
  match json with
  | VArr (VStr _) elems => forallb identified elems
  | VArr _ _ => false
  | VObj fields =>
      match fields !! "id" with
      | Some (VStr _) => true
      | _ => false
      end
  | _ => true
  end.

(** ** Looking into a presentation tree *)

Definition children_of (e : element) : list element :=
  match e with
  | ColumnList children | ColumnCard _ children | LinkButton _ children
  | Grid _ _ children | Fragment children => children
  | Keyed _ e' => [e']
  | _ => []
  end.

(** An element and everything below it, in document order. *)
Fixpoint subelements (e : element) : list element :=
  e :: match e with
       | ColumnList children | ColumnCard _ children | LinkButton _ children
       | Grid _ _ children | Fragment children =>
           flat_map subelements children
       | Keyed _ e' => subelements e'
       | _ => []
       end.

(** The variants of the [Typography] elements of a tree, in document
    order. *)
Fixpoint heading_variants (e : element) : list string :=
  match e with
  | Typography variant _ => [variant]
  | ColumnList children | ColumnCard _ children | LinkButton _ children
  | Grid _ _ children | Fragment children =>
      flat_map heading_variants children
  | Keyed _ e' => heading_variants e'
  | _ => []
  end.

(** The heading [Header] puts in front of a section (lines 70-72). *)
Definition heading (level : nat) (label : value) : element :=
  Grid 4 (Some classes_grid) [Typography ("h" +:+ pretty level) [Expr label]].

(** [child] is a Subtree child of the section [parent] that the dispatcher
    hands to [Header]: the parent is not tagged [shrimp]. *)
Definition section_child (parent child : value) : Prop :=
  ∃ tag, get (head_of parent) "tag" = Ok tag
         ∧ is_str tag "shrimp" = false
         ∧ child ∈ tail (elems_of parent)
         ∧ Array_isArray child = true.

(** [nested top k s]: the section [s] sits [k] levels below the top-level
    section [top], under sections that dispatch their children. *)
Inductive nested (top : value) : nat → value → Prop :=
| nested_child s :
    section_child top s → nested top 1 s
| nested_deeper k parent s tag :
    nested top k parent →
    get (head_of parent) "tag" = Ok tag →
    is_str tag "jupyter-activity" = false →
    section_child parent s →
    nested top (S k) s.

Section Headings.
Context {History : Type}.

(** The section [s] is rendered in [out], by [Header], with its heading at
    [level]. *)
Definition heading_at (history : History) (out : element) (s : value)
    (level : nat) : Prop :=
  ∃ id label children,
    get s "id" = Ok id
    ∧ get (head_of s) "value" = Ok label
    ∧ Header s level history = Ok (Fragment (heading level label :: children))
    ∧ Keyed id (Fragment (heading level label :: children)) ∈ subelements out.

End Headings.

(** ** Induction principles *)

(** Induction over values, through the elements of arrays. *)
Section ValueInd.
Variable P : value → Prop.
Hypothesis Hnull : P VNull.
Hypothesis Hundefined : P VUndefined.
Hypothesis Hbool : ∀ b, P (VBool b).
Hypothesis Hnum : ∀ n, P (VNum n).
Hypothesis Hstr : ∀ s, P (VStr s).
Hypothesis Harr : ∀ id elems, Forall P elems → P (VArr id elems).
Hypothesis Hobj : ∀ fields, P (VObj fields).

Fixpoint value_rows_ind (v : value) : P v :=
  match v with
  | VNull => Hnull
  | VUndefined => Hundefined
  | VBool b => Hbool b
  | VNum n => Hnum n
  | VStr s => Hstr s
  | VArr id elems =>
      Harr id elems
        ((fix rows (l : list value) : Forall P l :=
            match l with
            | [] => Forall_nil_2 P
            | x :: l' => Forall_cons_2 P x l' (value_rows_ind x) (rows l')
            end) elems)
  | VObj fields => Hobj fields
  end.
End ValueInd.

(** Induction over presentation trees, through the children. *)
Section ElementInd.
Variable P : element → Prop.
Hypothesis Hleaf : ∀ e, children_of e = [] → P e.
Hypothesis Hnode : ∀ e, Forall P (children_of e) → P e.

Fixpoint element_children_ind (e : element) : P e :=
  let all :=
    fix all (l : list element) : Forall P l :=
      match l with
      | [] => Forall_nil_2 P
      | x :: l' => Forall_cons_2 P x l' (element_children_ind x) (all l')
      end in
  match e with
  | ColumnList children => Hnode (ColumnList children) (all children)
  | ColumnCard header children => Hnode (ColumnCard header children) (all children)
  | LinkButton href children => Hnode (LinkButton href children) (all children)
  | Grid xs className children => Hnode (Grid xs className children) (all children)
  | Fragment children => Hnode (Fragment children) (all children)
  | Keyed key e' =>
      Hnode (Keyed key e') (Forall_cons_2 P e' [] (element_children_ind e') (Forall_nil_2 P))
  | Loading => Hleaf Loading eq_refl
  | Break => Hleaf Break eq_refl
  | ShrimpField json => Hleaf (ShrimpField json) eq_refl
  | SummaryField json => Hleaf (SummaryField json) eq_refl
  | JupyterActivity json => Hleaf (JupyterActivity json) eq_refl
  | JupyterAllActivities json => Hleaf (JupyterAllActivities json) eq_refl
  | Text children => Hleaf (Text children) eq_refl
  | Typography variant children => Hleaf (Typography variant children) eq_refl
  end.
End ElementInd.

(** ** Sample documents *)

(** A record and a freshly parsed array. *)
Definition obj (props : list (string * value)) : value :=
  VObj (list_to_map props).

Definition arr (elems : list value) : value := VArr VUndefined elems.

Definition head_node (tag label : string) : value :=
  obj [("tag", VStr tag); ("value", VStr label)].

Definition date_row : value := arr [head_node "date" "2020-03-01"].

(** A top-level section with a section below it and another one below
    that. *)
Definition climbs : value :=
  arr [head_node "climbs" "Climbs";
       obj [("type", VStr "value"); ("tag", VStr "total"); ("value", VNum 2)]].

Definition ride : value :=
  arr [head_node "ride" "Ride";
       obj [("type", VStr "value"); ("tag", VStr "distance"); ("value", VNum 42)];
       climbs].

Definition activities : value := arr [head_node "activities" "Activities"; ride].

Definition doc_nested : value := arr [date_row; activities].

(** A top-level section tagged [jupyter-activity]. *)
Definition jupyter_field : value :=
  obj [("type", VStr "value"); ("tag", VStr "name"); ("value", VStr "compare")].

Definition doc_jupyter : value :=
  arr [date_row; arr [head_node "jupyter-activity" "Jupyter"; jupyter_field]].

(** Three top-level rows. *)
Definition doc_three : value :=
  arr [date_row;
       arr [head_node "diary" "Diary"; obj [("type", VStr "link"); ("tag", VStr "health"); ("value", VStr "OK")]];
       arr [head_node "shrimp" "Fitness"; arr [head_node "ctl" "CTL"]]].

(** ** When rendering completes *)

Definition succeeds {A : Type} (r : result A) : bool :=
  match r with
  | Ok _ => true
  | TypeError => false
  end.

(** A property can be read from everything but [null] and [undefined]. *)
Definition has_properties (v : value) : bool :=
  match v with
  | VNull | VUndefined => false
  | _ => true
  end.

(** [head.tag], where it can be read. *)
Definition tag_of (head : value) : value :=
  match get head "tag" with
  | Ok tag => tag
  | TypeError => VUndefined
  end.

Section Rows.
Variable renderable : value → bool.

(** The rows a parent tagged [tag] can dispatch: [row.id] can be read from
    each, and each array among them can be rendered as a section, unless
    the parent is tagged [shrimp] and the array is handed on as it is. *)
Definition dispatchable_with (tag : value) (rest : list value) : bool :=
  forallb (λ row,
             has_properties row
             && (if Array_isArray row
                 then is_str tag "shrimp" || renderable row
                 else true))
    rest.
End Rows.

(** The arrays that can be rendered as a section: there is a head to read
    the tag from, and the rest is either the payload of a
    [jupyter-activity] or can be dispatched. *)
Fixpoint renderable (s : value) : bool :=
  match s with
  | VArr _ (head :: rest) =>
      has_properties head
      && (is_str (tag_of head) "jupyter-activity"
          || dispatchable_with renderable (tag_of head) rest)
  | _ => false
  end.

Definition dispatchable : value → list value → bool :=
  dispatchable_with renderable.

(** The rows that can be rendered as a top-level card. *)
Definition top_renderable (row : value) : bool :=
  match destructure row with
  | Ok (head, rest) => has_properties head && dispatchable (tag_of head) rest
  | TypeError => false
  end.

(** How deep arrays are nested in a value. *)
Fixpoint depth (v : value) : nat :=
  match v with
  | VArr _ elems => S (foldr (λ row deepest, depth row `max` deepest) 0 elems)
  | _ => 0
  end.

Definition is_Break (e : element) : bool :=
  match e with
  | Break => true
  | _ => false
  end.

(** [variant] is the variant of a heading at a level from [low] up to, but
    not including, [high]. *)
Definition level_within (low high : nat) (variant : string) : Prop :=
  ∃ l, low ≤ l < high ∧ variant = "h" +:+ pretty l.

(** * Properties *)

(** ** The error monad *)

Lemma bind_Ok {A B} (m : result A) (f : A → result B) (b : B) :
  m ≫= f = Ok b ↔ ∃ a, m = Ok a ∧ f a = Ok b.
Proof.
  destruct m as [a|]; simpl; split.
  - intros Hf. exists a. auto.
  - intros (a' & Ha & Hf). congruence.
  - discriminate.
  - intros (a' & Ha & _). discriminate.
Qed.

Lemma succeeds_bind {A B} (m : result A) (f : A → result B) :
  succeeds (m ≫= f)
  = match m with
    | Ok a => succeeds (f a)
    | TypeError => false
    end.
Proof. destruct m; reflexivity. Qed.

Lemma get_succeeds v key : succeeds (get v key) = has_properties v.
Proof. destruct v; reflexivity. Qed.

Ltac inv_bind H :=
  repeat match type of H with
         | _ ≫= _ = Ok _ =>
             let a := fresh "a" in
             let Ha := fresh "Ha" in
             apply bind_Ok in H; destruct H as (a & Ha & H)
         | mret _ = Ok _ => injection H as H
         | Ok _ = Ok _ => injection H as H
         end.

(** ** The id-assignment pass *)

Lemma setId_isArray id v : Array_isArray (setId id v) = Array_isArray v.
Proof. destruct v; reflexivity. Qed.

Lemma setId_FieldNode id v : FieldNode (setId id v) = FieldNode v.
Proof. destruct v; reflexivity. Qed.

Lemma setId_HeadNode id v : HeadNode (setId id v) = HeadNode v.
Proof.
  destruct v; try reflexivity. simpl.
  rewrite !lookup_insert_ne by discriminate. reflexivity.
Qed.

Lemma setId_get_other id v key :
  key ≠ "id" → get (setId id v) key = get v key.
Proof.
  intros Hkey. destruct v; try reflexivity; simpl.
  - destruct (String.eqb_spec key "id"); [contradiction | reflexivity].
  - rewrite lookup_insert_ne by congruence. reflexivity.
Qed.

Lemma stamp_rows_length stamp id index rows :
  length (stamp_rows stamp id index rows) = length rows.
Proof.
  revert index. induction rows as [|row rows IH]; intros index; simpl; auto.
Qed.

(** Running the pass again changes nothing: every identifier is a function
    of the position alone. *)
Lemma setId_idempotent v : ∀ id, setId id (setId id v) = setId id v.
Proof.
  induction v as [| | | | |aid elems IH|fields] using value_rows_ind;
    intros id; try reflexivity.
  - simpl. f_equal. generalize 0.
    induction IH as [|row rows Hrow _ IHrows]; intros index; simpl.
    + reflexivity.
    + rewrite Hrow, IHrows. reflexivity.
  - simpl. rewrite insert_insert_eq. reflexivity.
Qed.

(** The pass writes identifiers and nothing else. *)
Lemma erase_ids_setId v : ∀ id, erase_ids (setId id v) = erase_ids v.
Proof.
  induction v as [| | | | |aid elems IH|fields] using value_rows_ind;
    intros id; try reflexivity.
  - simpl. f_equal. generalize 0.
    induction IH as [|row rows Hrow _ IHrows]; intros index; simpl.
    + reflexivity.
    + rewrite Hrow, IHrows. reflexivity.
  - simpl. rewrite delete_insert_eq. reflexivity.
Qed.

(** The pass leaves no array and no record without an identifier. *)
Lemma identified_setId v : ∀ id, identified (setId id v) = true.
Proof.
  induction v as [| | | | |aid elems IH|fields] using value_rows_ind;
    intros id; try reflexivity.
  - cbn [setId identified]. generalize 0.
    induction IH as [|row rows Hrow _ IHrows]; intros index; simpl.
    + reflexivity.
    + rewrite Hrow, IHrows. reflexivity.
  - cbn [setId identified]. rewrite lookup_insert_eq. reflexivity.
Qed.

Lemma Subtree_setId v : ∀ id, Subtree (setId id v) = Subtree v.
Proof.
  induction v as [| | | | |aid elems IH|fields] using value_rows_ind;
    intros id; try reflexivity.
  destruct elems as [|head rest]; [reflexivity|].
  simpl. rewrite setId_HeadNode. f_equal.
  apply Forall_cons in IH as [_ IH]. generalize 1.
  induction IH as [|row rows Hrow _ IHrows]; intros index; simpl.
  - reflexivity.
  - rewrite setId_isArray, setId_FieldNode, Hrow, IHrows. reflexivity.
Qed.

Lemma Document_setIds doc : Document (setIds doc) = Document doc.
Proof.
  destruct doc; try reflexivity. unfold setIds. simpl. generalize 0.
  induction elems as [|row rows IH]; intros index; simpl.
  - reflexivity.
  - rewrite Subtree_setId, IH. reflexivity.
Qed.

(** ** The renderer: equations and totality *)

Section RendererFacts.
Context {History : Type}.
Implicit Types (history : History) (level : nat).

(** On an array, [Header] is its body applied to the head and the rest. *)
Lemma Header_array id elems level history :
  Header (VArr id elems) level history
  = Header_body Header (head_of (VArr id elems)) (tail elems) level history.
Proof. destruct elems; reflexivity. Qed.

(** Without an array among the rows, the dispatcher renders no section. *)
Lemma childrenFromRest_with_fields header header' head rest level history :
  Forall (λ row, Array_isArray row = false) rest →
  childrenFromRest_with header head rest level history
  = childrenFromRest_with header' head rest level history.
Proof.
  induction 1 as [|row rows Hrow _ IH]; simpl; [reflexivity|].
  rewrite Hrow, IH. reflexivity.
Qed.

(** [Header] is the function of the source: destructure [json], then the
    body, with [Header] itself for the sections below. *)
Lemma Header_unfold json level history :
  Header json level history
  = (parts ← destructure json;
     Header_body Header parts.1 parts.2 level history).
Proof.
  destruct json as [| | | | s |id elems|]; try reflexivity.
  - cbn [Header destructure iterate mbind result_bind mret result_ret].
    set (parts := match _ with [] => (VUndefined, []) | head :: rest => (head, rest) end).
    assert (Forall (λ row, Array_isArray row = false) parts.2) as Hrows.
    { subst parts. destruct s as [|c s]; simpl; [constructor|].
      apply Forall_fmap, Forall_true. reflexivity. }
    unfold Header_body. destruct (get parts.1 "tag") as [tag|]; [|reflexivity].
    cbn [mbind result_bind]. destruct (is_str tag "jupyter-activity"); [reflexivity|].
    rewrite (childrenFromRest_with_fields _ Header _ _ _ _ Hrows). reflexivity.
  - destruct elems; reflexivity.
Qed.

(** A record always has the properties read from it, and [Field] renders
    every record. *)
Lemma get_obj fields key :
  get (VObj fields) key = Ok (default VUndefined (fields !! key)).
Proof. reflexivity. Qed.

Lemma Field_record fields : ∃ e, Field (VObj fields) = Ok e.
Proof.
  unfold Field. rewrite !get_obj. simpl.
  repeat (case_match; simpl); eauto.
Qed.

(** The dispatcher is a homomorphism from the concatenation of rows to the
    concatenation of what they render. *)
Lemma childrenFromRest_app head pre post level history :
  childrenFromRest head (pre ++ post) level history
  = (xs ← childrenFromRest head pre level history;
     ys ← childrenFromRest head post level history;
     mret (xs ++ ys)).
Proof.
  unfold childrenFromRest.
  induction pre as [|row pre IH]; simpl.
  - destruct (childrenFromRest_with Header head post level history); reflexivity.
  - rewrite IH.
    destruct (if Array_isArray row then _ else _) as [pushed|]; simpl; [|reflexivity].
    destruct (childrenFromRest_with Header head pre level history) as [xs|];
      simpl; [|reflexivity].
    destruct (childrenFromRest_with Header head post level history) as [ys|];
      simpl; [|reflexivity].
    unfold mret, result_ret. rewrite (assoc_L (++)). reflexivity.
Qed.

Lemma childrenFromRest_cons head row rest level history :
  childrenFromRest head (row :: rest) level history
  = (xs ← childrenFromRest head [row] level history;
     ys ← childrenFromRest head rest level history;
     mret (xs ++ ys)).
Proof. apply (childrenFromRest_app head [row] rest). Qed.

(** What one row contributes. *)
Lemma childrenFromRest_section head id elems level history :
  is_str head "shrimp" = false →
  childrenFromRest head [VArr id elems] level history
  = (section ← Header (VArr id elems) level history;
     mret [Break; Keyed id section]).
Proof.
  intros Hhead. unfold childrenFromRest. cbn [childrenFromRest_with Array_isArray].
  rewrite Hhead. cbn [get String.eqb Ascii.eqb Bool.eqb mbind result_bind].
  destruct (Header _ _ _); reflexivity.
Qed.

Lemma childrenFromRest_shrimp id elems level history :
  childrenFromRest (VStr "shrimp") [VArr id elems] level history
  = Ok [Keyed id (ShrimpField (VArr id elems))].
Proof. reflexivity. Qed.

Lemma childrenFromRest_field head fields level history :
  childrenFromRest head [VObj fields] level history
  = (field ← Field (VObj fields);
     mret [Keyed (default VUndefined (fields !! "id")) field]).
Proof.
  unfold childrenFromRest. cbn [childrenFromRest_with Array_isArray].
  rewrite get_obj. cbn [mbind result_bind].
  destruct (Field _); reflexivity.
Qed.

(** Under [shrimp] the arrays of the rest go to [ShrimpField], one element
    each. *)
Lemma childrenFromRest_shrimp_arrays (subtrees : list (value * list value))
    level history :
  childrenFromRest (VStr "shrimp") ((λ p, VArr p.1 p.2) <$> subtrees) level history
  = Ok ((λ p, Keyed p.1 (ShrimpField (VArr p.1 p.2))) <$> subtrees).
Proof.
  induction subtrees as [|[id elems] subtrees IH]; [reflexivity|].
  cbn [fmap list_fmap fst snd]. rewrite childrenFromRest_cons.
  rewrite childrenFromRest_shrimp.
  change (list_fmap _ _ ?f subtrees) with (f <$> subtrees).
  rewrite IH. reflexivity.
Qed.

(** Whether the dispatcher completes, row by row. *)
Lemma childrenFromRest_single_succeeds head row level history :
  succeeds (childrenFromRest head [row] level history)
  = has_properties row
    && (if Array_isArray row
        then is_str head "shrimp" || succeeds (Header row level history)
        else true).
Proof.
  unfold childrenFromRest. cbn [childrenFromRest_with].
  destruct row as [| | | | |id elems|fields]; try reflexivity.
  - cbn [Array_isArray has_properties andb].
    destruct (is_str head "shrimp"); [reflexivity|].
    cbn [get String.eqb Ascii.eqb Bool.eqb mbind result_bind orb].
    destruct (Header _ _ _); reflexivity.
  - cbn [Array_isArray has_properties andb]. rewrite get_obj.
    cbn [mbind result_bind]. destruct (Field_record fields) as [e ->].
    reflexivity.
Qed.

Lemma childrenFromRest_succeeds head rest level history :
  succeeds (childrenFromRest head rest level history)
  = forallb (λ row, succeeds (childrenFromRest head [row] level history)) rest.
Proof.
  induction rest as [|row rest IH]; [reflexivity|].
  rewrite childrenFromRest_cons. cbn [forallb]. rewrite <- IH.
  destruct (childrenFromRest head [row] level history); [|reflexivity].
  destruct (childrenFromRest head rest level history); reflexivity.
Qed.

(** The dispatcher completes when each of its rows can be rendered. *)
Lemma childrenFromRest_total head rest level history :
  Forall (λ row, if Array_isArray row
                 then ∃ e, Header row level history = Ok e
                 else FieldNode row = true) rest →
  ∃ cs, childrenFromRest head rest level history = Ok cs.
Proof.
  induction 1 as [|row rows Hrow _ [cs Hcs]].
  - eexists; reflexivity.
  - rewrite childrenFromRest_cons, Hcs.
    destruct row as [| | | | |id elems|fields]; try discriminate.
    + destruct Hrow as [e He].
      destruct (is_str head "shrimp") eqn:Hshrimp.
      * destruct head; try discriminate. apply String.eqb_eq in Hshrimp as ->.
        rewrite childrenFromRest_shrimp. eexists; reflexivity.
      * rewrite childrenFromRest_section, He by done. eexists; reflexivity.
    + destruct (Field_record fields) as [e He].
      rewrite childrenFromRest_field, He. eexists; reflexivity.
Qed.

(** Every Subtree is rendered, at any level. *)
Lemma Header_total s :
  Subtree s = true → ∀ level history, ∃ e, Header s level history = Ok e.
Proof.
  induction s as [| | | | |id elems IH|fields] using value_rows_ind;
    try discriminate.
  intros Hs level history.
  destruct elems as [|head rest]; [discriminate|].
  simpl in Hs. apply andb_true_iff in Hs as [Hhead Hrest].
  apply Forall_cons in IH as [_ IH].
  destruct head as [| | | | | |fields]; try discriminate.
  cbn [Header]. unfold Header_body. rewrite !get_obj. cbn [mbind result_bind].
  set (tag := default VUndefined (fields !! "tag")).
  destruct (is_str tag "jupyter-activity"); [eexists; reflexivity|].
  destruct (childrenFromRest_total tag rest (level + 1) history) as [cs Hcs].
  - rewrite forallb_forall in Hrest. rewrite Forall_forall in IH |- *.
    intros row Hin. specialize (Hrest row (proj1 (list_elem_of_In _ _) Hin)).
    destruct (Array_isArray row); auto.
  - unfold childrenFromRest in Hcs. rewrite Hcs. eexists; reflexivity.
Qed.

Lemma TopLevelPaper_total s history :
  Subtree s = true →
  ∃ header children, TopLevelPaper s history = Ok (ColumnCard header children).
Proof.
  intros Hs. destruct s as [| | | | |id elems|]; try discriminate.
  destruct elems as [|head rest]; [discriminate|].
  simpl in Hs. apply andb_true_iff in Hs as [Hhead Hrest].
  destruct head as [| | | | | |fields]; try discriminate.
  unfold TopLevelPaper. cbn [destructure iterate mbind result_bind mret result_ret fst snd].
  rewrite !get_obj. cbn [mbind result_bind].
  destruct (childrenFromRest_total (default VUndefined (fields !! "tag")) rest 3 history)
    as [cs Hcs].
  - rewrite forallb_forall in Hrest. rewrite Forall_forall.
    intros row Hin. specialize (Hrest row (proj1 (list_elem_of_In _ _) Hin)).
    destruct (Array_isArray row) eqn:Harr; auto. apply Header_total, Hrest.
  - rewrite Hcs. eexists _, _; reflexivity.
Qed.

End RendererFacts.

(** ** The document renderer *)

Section ScheduleFacts.
Context {History : Type}.
Implicit Types (history : History) (level : nat).

Lemma Schedule_array id elems history :
  Schedule (VArr id elems) history
  = Outcome (setIds (VArr id elems))
      (papers ← top_level_papers (tail (stamp_rows setId "0" 0 elems)) history;
       mret (ColumnList papers)).
Proof. reflexivity. Qed.

Lemma Schedule_not_null json history :
  json ≠ VNull →
  Schedule json history
  = Outcome (setIds json)
      (match setIds json with
       | VArr _ elems =>
           papers ← top_level_papers (tail elems) history;
           mret (ColumnList papers)
       | _ => TypeError
       end).
Proof. destruct json; try reflexivity. congruence. Qed.

Lemma setIds_not_null json : json ≠ VNull → setIds json ≠ VNull.
Proof. destruct json; try discriminate. congruence. Qed.

(** [TopLevelPaper] renders a card or throws. *)
Lemma TopLevelPaper_card row history out :
  TopLevelPaper row history = Ok out →
  ∃ header children, out = ColumnCard header children.
Proof.
  unfold TopLevelPaper. intros H. inv_bind H. subst out. eauto.
Qed.

(** One keyed card per row, in the order of the rows. *)
Lemma top_level_papers_rows rows history papers :
  top_level_papers rows history = Ok papers →
  Forall2 (λ row paper, ∃ key header children,
             get row "id" = Ok key
             ∧ TopLevelPaper row history = Ok (ColumnCard header children)
             ∧ paper = Keyed key (ColumnCard header children))
    rows papers.
Proof.
  revert papers. induction rows as [|row rows IH]; intros papers H; simpl in H.
  - injection H as <-. constructor.
  - inv_bind H. subst papers.
    destruct (TopLevelPaper_card _ _ _ Ha0) as (header & children & ->).
    constructor; eauto 10.
Qed.

Lemma top_level_papers_total rows history :
  forallb Subtree rows = true →
  ∃ papers, top_level_papers rows history = Ok papers.
Proof.
  induction rows as [|row rows IH]; simpl; intros Hrows.
  - eexists; reflexivity.
  - apply andb_true_iff in Hrows as [Hrow Hrows].
    destruct (IH Hrows) as [papers ->].
    destruct (TopLevelPaper_total row history Hrow) as (header & children & ->).
    destruct row; try discriminate. eexists; reflexivity.
Qed.

Lemma Schedule_total doc history :
  Document doc = true →
  ∃ papers, rendered (Schedule doc history) = Ok (ColumnList papers).
Proof.
  intros Hdoc. rewrite <- Document_setIds in Hdoc.
  destruct doc as [| | | | |id elems|]; try discriminate.
  rewrite Schedule_array. cbn [rendered].
  unfold setIds in Hdoc. cbn [setId Document] in Hdoc.
  destruct (top_level_papers_total (tail (stamp_rows setId "0" 0 elems)) history)
    as [papers ->]; [|eexists; reflexivity].
  destruct elems; simpl in *; [reflexivity|].
  apply andb_true_iff in Hdoc as [_ Hdoc]. exact Hdoc.
Qed.

Lemma erase_ids_stamp_rows id index rows :
  erase_ids <$> stamp_rows setId id index rows = erase_ids <$> rows.
Proof.
  revert index. induction rows as [|row rows IH]; intros index; simpl.
  - reflexivity.
  - rewrite erase_ids_setId, IH. reflexivity.
Qed.

End ScheduleFacts.

(** ** Claims about the document renderer *)

Section ScheduleClaims.
Context {History : Type}.
Implicit Types (history : History) (level : nat).

(** C1, as amended.  Rendering a loaded document runs the id-assignment
    pass on it, which writes the identifier of every node and array in
    place: after the rendering every array and every record of the
    document carries an identifier.  Apart from these identifiers the
    document is left as it was (no node is created, changed or destroyed),
    a document that already carries its identifiers is left untouched, and
    so is the not-yet-loaded value. *)
Theorem Schedule_writes_only_ids (d : value) history :
  identified (json_after (Schedule d history)) = true
  ∧ erase_ids (json_after (Schedule d history)) = erase_ids d
  ∧ json_after (Schedule (setIds d) history) = setIds d
  ∧ json_after (Schedule VNull history) = VNull.
Proof.
  split; [|split; [|split; [|reflexivity]]].
  - destruct d; try reflexivity; apply (identified_setId _ "0").
  - destruct d; try reflexivity; apply (erase_ids_setId _ "0").
  - destruct d; try reflexivity; apply (setId_idempotent _ "0").
Qed.

(** C3.  The date label, element 0 of a loaded document, contributes
    nothing to the output: the output is computed from the rows after it
    alone.  These are the input rows after element 0 with their
    identifiers written, and the output is one keyed top-level card per
    such row, in the order of the rows.  A well-formed document is
    rendered. *)
Theorem Schedule_drops_date_label id (date : value) (rows : list value) history :
  let doc := VArr id (date :: rows) in
  let rows' := tail (elems_of (json_after (Schedule doc history))) in
  rendered (Schedule doc history)
  = (papers ← top_level_papers rows' history; mret (ColumnList papers))
  ∧ erase_ids <$> rows' = erase_ids <$> rows
  ∧ (∀ out, rendered (Schedule doc history) = Ok out →
       ∃ papers,
         out = ColumnList papers
         ∧ Forall2 (λ row paper, ∃ key header children,
                      get row "id" = Ok key
                      ∧ TopLevelPaper row history = Ok (ColumnCard header children)
                      ∧ paper = Keyed key (ColumnCard header children))
             rows' papers)
  ∧ (Document doc = true → ∃ out, rendered (Schedule doc history) = Ok out).
Proof.
  intros doc rows'. subst doc rows'. rewrite Schedule_array.
  cbn [json_after rendered setIds setId elems_of stamp_rows tail].
  split; [reflexivity|]. split; [apply erase_ids_stamp_rows|]. split.
  - intros out H. inv_bind H. subst out. exists a. split; [reflexivity|].
    apply top_level_papers_rows, Ha.
  - intros Hdoc. destruct (Schedule_total _ history Hdoc) as [papers H].
    exists (ColumnList papers). exact H.
Qed.

(** C9.  Rendering a document a second time, the document being what the
    first rendering left, produces the same presentation tree and leaves
    the document as it is. *)
Theorem Schedule_twice (d : value) history :
  let first := Schedule d history in
  let second := Schedule (json_after first) history in
  rendered second = rendered first ∧ json_after second = json_after first.
Proof.
  cbn zeta. assert (d = VNull ∨ d ≠ VNull) as [->|Hd]
    by (destruct d; auto; right; discriminate).
  { split; reflexivity. }
  rewrite (Schedule_not_null d) by done. cbn [json_after rendered].
  rewrite Schedule_not_null by apply setIds_not_null, Hd.
  cbn [json_after rendered]. unfold setIds. rewrite setId_idempotent.
  split; reflexivity.
Qed.

(** C10.  The placeholder is rendered exactly when the input is [null]:
    [null] yields the placeholder alone and is not touched; every other
    input, [undefined] included, goes down the path of a loaded document
    (the id-assignment pass, then [slice] and [map]), which never yields
    the placeholder and, on [undefined], throws. *)
Theorem Schedule_loading_iff_null (json : value) history :
  Schedule VNull history = Outcome VNull (Ok Loading)
  ∧ (rendered (Schedule json history) = Ok Loading ↔ json = VNull)
  ∧ (json ≠ VNull →
       Schedule json history
       = Outcome (setIds json)
           (match setIds json with
            | VArr _ elems =>
                papers ← top_level_papers (tail elems) history;
                mret (ColumnList papers)
            | _ => TypeError
            end))
  ∧ Schedule VUndefined history = Outcome VUndefined TypeError.
Proof.
  split; [reflexivity|]. split; [|split; [apply Schedule_not_null|reflexivity]].
  split; [|intros ->; reflexivity].
  destruct json as [| | | | |id elems|]; try discriminate; [reflexivity|].
  rewrite Schedule_array. cbn [rendered]. intros H. inv_bind H. discriminate.
Qed.

End ScheduleClaims.

(** C1, as stated, fails: rendering a freshly parsed document leaves it
    changed. *)
Lemma Schedule_mutates_fresh_document :
  json_after (Schedule doc_three tt) ≠ doc_three
  ∧ get (head_of (json_after (Schedule doc_three tt))) "id" = Ok (VStr "0,0")
  ∧ get (head_of doc_three) "id" = Ok VUndefined.
Proof.
  split; [|split; reflexivity].
  unfold doc_three, arr. simpl. discriminate.
Qed.

Lemma Schedule_drops_date_label_witness :
  ∃ out, rendered (Schedule doc_three tt) = Ok out.
Proof.
  exact (proj2 (proj2 (proj2
           (Schedule_drops_date_label VUndefined date_row
              (tail (elems_of doc_three)) tt))) eq_refl).
Defined.

Lemma Schedule_loading_iff_null_witness :
  Schedule doc_three tt
  = Outcome (setIds doc_three)
      (match setIds doc_three with
       | VArr _ elems =>
           papers ← top_level_papers (tail elems) tt;
           mret (ColumnList papers)
       | _ => TypeError
       end).
Proof.
  apply (proj1 (proj2 (proj2 (Schedule_loading_iff_null doc_three tt)))).
  discriminate.
Defined.

(** ** Presentation trees *)

Lemma subelements_unfold e :
  subelements e = e :: flat_map subelements (children_of e).
Proof. destruct e; simpl; rewrite ?app_nil_r; reflexivity. Qed.

Lemma subelements_self e : e ∈ subelements e.
Proof. rewrite subelements_unfold. left. Qed.

Lemma subelements_below parent child e :
  child ∈ children_of parent → e ∈ subelements child → e ∈ subelements parent.
Proof.
  intros Hchild He. rewrite subelements_unfold. right.
  apply list_elem_of_In, in_flat_map. exists child.
  split; apply list_elem_of_In; assumption.
Qed.

(** The children of an element of the tree are elements of the tree. *)
Lemma subelements_children out : ∀ e child,
  e ∈ subelements out → child ∈ children_of e → child ∈ subelements out.
Proof.
  induction out as [out Hleaf|out IH] using element_children_ind;
    intros e child He Hchild; rewrite subelements_unfold in He;
    apply elem_of_cons in He as [->|He].
  - rewrite Hleaf in Hchild. inversion Hchild.
  - rewrite Hleaf in He. inversion He.
  - eapply subelements_below; [exact Hchild|apply subelements_self].
  - apply list_elem_of_In, in_flat_map in He as (c & Hc & He).
    apply list_elem_of_In in Hc, He.
    rewrite Forall_forall in IH.
    eapply subelements_below; [exact Hc|]. eapply IH; eassumption.
Qed.

Lemma heading_variants_unfold e :
  heading_variants e
  = match e with
    | Typography variant _ => [variant]
    | _ => flat_map heading_variants (children_of e)
    end.
Proof. destruct e; simpl; rewrite ?app_nil_r; reflexivity. Qed.

(** A heading of an element of the tree is a heading of the tree. *)
Lemma heading_variants_subelements out : ∀ e variant,
  e ∈ subelements out →
  variant ∈ heading_variants e → variant ∈ heading_variants out.
Proof.
  induction out as [out Hleaf|out IH] using element_children_ind;
    intros e variant He Hv; rewrite subelements_unfold in He;
    apply elem_of_cons in He as [->|He]; try assumption.
  - rewrite Hleaf in He. inversion He.
  - apply list_elem_of_In, in_flat_map in He as (c & Hc & He).
    apply list_elem_of_In in He. rewrite Forall_forall in IH.
    pose proof (IH c (proj2 (list_elem_of_In _ _) Hc) e variant He Hv) as Hin.
    rewrite heading_variants_unfold.
    destruct out; try (inversion Hc; fail);
      apply list_elem_of_In, in_flat_map; exists c;
      (split; [exact Hc|apply list_elem_of_In; exact Hin]).
Qed.

(** ** Sections below a top-level section *)

Section SectionFacts.
Context {History : Type}.
Implicit Types (history : History) (level : nat).

(** A Subtree row under a parent that is not tagged [shrimp] is rendered
    by [Header] at the level the dispatcher was given. *)
Lemma childrenFromRest_renders_section head rest level history cs s :
  childrenFromRest head rest level history = Ok cs →
  is_str head "shrimp" = false →
  s ∈ rest → Array_isArray s = true →
  ∃ id section,
    get s "id" = Ok id ∧ Header s level history = Ok section
    ∧ Keyed id section ∈ cs.
Proof.
  intros H Hhead Hin Harr. revert cs H.
  induction rest as [|row rest IH]; intros cs H; [inversion Hin|].
  rewrite childrenFromRest_cons in H. inv_bind H. subst cs.
  apply elem_of_cons in Hin as [<-|Hin].
  - destruct s as [| | | | |id elems|]; try discriminate.
    rewrite childrenFromRest_section in Ha by done. inv_bind Ha. subst a.
    exists id, a1. split; [reflexivity|]. split; [assumption|].
    right. left.
  - destruct (IH Hin a0 Ha0) as (id & section & Hid & Hsec & Hcs).
    exists id, section. split; [assumption|]. split; [assumption|].
    apply elem_of_app. right. assumption.
Qed.

(** What [Header] renders for an array: the heading at its level, then the
    children; unless the tag is [jupyter-activity], the children are those
    the dispatcher yields one level further down. *)
Lemma Header_fragment s level history out :
  Array_isArray s = true →
  Header s level history = Ok out →
  ∃ label children,
    get (head_of s) "value" = Ok label
    ∧ out = Fragment (heading level label :: children)
    ∧ ∀ tag, get (head_of s) "tag" = Ok tag →
             is_str tag "jupyter-activity" = false →
             childrenFromRest tag (tail (elems_of s)) (level + 1) history
             = Ok children.
Proof.
  intros Harr H. destruct s as [| | | | |id elems|]; try discriminate.
  rewrite Header_array in H. unfold Header_body in H.
  cbn [elems_of]. set (head := head_of (VArr id elems)) in *.
  inv_bind H. subst out. exists a1, a0.
  split; [assumption|]. split; [reflexivity|].
  intros tag Htag Hjupyter. rewrite Ha in Htag. injection Htag as ->.
  rewrite Hjupyter in Ha0. exact Ha0.
Qed.

Lemma section_child_array parent s :
  section_child parent s → Array_isArray s = true.
Proof. intros (tag & _ & _ & _ & H). exact H. Qed.

Lemma nested_array top k s : nested top k s → Array_isArray s = true.
Proof. destruct 1; eauto using section_child_array. Qed.

Lemma TopLevelPaper_renders_child top history header children s :
  TopLevelPaper top history = Ok (ColumnCard header children) →
  section_child top s →
  heading_at history (ColumnCard header children) s 3.
Proof.
  intros H (tag & Htag & Hshrimp & Hin & Harr).
  destruct top as [| | | | |tid elems|]; try (inversion Hin; fail).
  destruct elems as [|head rest]; [inversion Hin|].
  unfold TopLevelPaper in H.
  cbn [destructure iterate mbind result_bind mret result_ret fst snd] in H.
  cbn [head_of elems_of tail] in Htag, Hin.
  rewrite Htag in H. cbn [mbind result_bind] in H. inv_bind H.
  subst header children.
  destruct (childrenFromRest_renders_section _ _ _ _ _ _ Ha Hshrimp Hin Harr)
    as (id & section & Hid & Hsec & Hcs).
  destruct (Header_fragment _ _ _ _ Harr Hsec) as (label & cs & Hlabel & -> & _).
  exists id, label, cs. repeat split; try assumption.
  eapply subelements_below; [exact Hcs|apply subelements_self].
Qed.

(** The heading of a section [k] levels below a top-level section is at
    level [2 + k]. *)
Lemma nested_heading_at top history header children k s :
  TopLevelPaper top history = Ok (ColumnCard header children) →
  nested top k s →
  heading_at history (ColumnCard header children) s (2 + k).
Proof.
  intros Htop. induction 1 as [s Hs|k parent s tag Hparent IH Htag Hjupyter Hs].
  - eapply TopLevelPaper_renders_child; eassumption.
  - destruct IH as (pid & plabel & pchildren & _ & _ & Hheader & Hin).
    pose proof (nested_array _ _ _ Hparent) as Hparr.
    destruct (Header_fragment _ _ _ _ Hparr Hheader)
      as (label' & cs' & _ & Heq & Hcs).
    injection Heq as _ <-.
    specialize (Hcs tag Htag Hjupyter).
    destruct Hs as (tag' & Htag' & Hshrimp & Hsin & Harr).
    rewrite Htag in Htag'. injection Htag' as <-.
    destruct (childrenFromRest_renders_section _ _ _ _ _ _ Hcs Hshrimp Hsin Harr)
      as (id & section & Hid & Hsec & Hcsin).
    replace (2 + k + 1) with (2 + S k) in Hsec by lia.
    destruct (Header_fragment _ _ _ _ Harr Hsec) as (label & cs & Hlabel & -> & _).
    exists id, label, cs. repeat split; try assumption.
    eapply subelements_children.
    + eapply subelements_children; [exact Hin|]. left.
    + right. exact Hcsin.
Qed.

End SectionFacts.

(** ** Claims about the dispatcher, the section renderer and the field
    renderer *)

Section DispatchClaims.
Context {History : Type}.
Implicit Types (history : History) (level : nat).

(** C2, as amended.  A well-formed loaded document is rendered, and the
    heading of a section is at level 2 plus its nesting distance below the
    top-level section: the sections directly below a top-level section have
    their headings at level 3, and each further level of nesting adds
    exactly 1, so that a section two levels below a top-level section has
    its heading at level 4. *)
Theorem heading_level_of_nested_section (doc : value) history :
  Document doc = true →
  ∃ papers,
    rendered (Schedule doc history) = Ok (ColumnList papers)
    ∧ ∀ top k s,
        top ∈ tail (elems_of (json_after (Schedule doc history))) →
        nested top k s →
        heading_at history (ColumnList papers) s (2 + k).
Proof.
  intros Hdoc. destruct (Schedule_total doc history Hdoc) as [papers Hout].
  exists papers. split; [exact Hout|]. intros top k s Htop Hnested.
  destruct doc as [| | | | |id elems|]; try discriminate.
  rewrite Schedule_array in Hout, Htop. cbn [rendered json_after] in Hout, Htop.
  cbn [setIds setId elems_of] in Htop. inv_bind Hout. subst a.
  apply top_level_papers_rows in Ha.
  assert (∃ key header children,
             TopLevelPaper top history = Ok (ColumnCard header children)
             ∧ Keyed key (ColumnCard header children) ∈ papers)
    as (key & header & children & Hpaper & Hin).
  { clear Hnested. induction Ha as [|row paper rows papers' Hrow _ IH].
    - inversion Htop.
    - apply elem_of_cons in Htop as [->|Htop].
      + destruct Hrow as (key & header & children & _ & Hpaper & ->).
        exists key, header, children. split; [assumption|left].
      + destruct (IH Htop) as (key & header & children & Hpaper & Hin).
        exists key, header, children. split; [assumption|right; assumption]. }
  destruct (nested_heading_at _ _ _ _ _ _ Hpaper Hnested)
    as (sid & label & cs & Hid & Hlabel & Hheader & Hsub).
  exists sid, label, cs. repeat split; try assumption.
  eapply subelements_below; [exact Hin|].
  eapply subelements_below; [left|exact Hsub].
Qed.

(** C4.  Under a parent whose head is tagged [shrimp], both [Header] and
    [TopLevelPaper] dispatch the rest with the head [shrimp]; there every
    Subtree child, wherever it stands and whatever it holds, yields exactly
    one [ShrimpField] given the child itself, with no separator and no
    heading, and [Header] is not called for it: the output has one element
    per row, a [ShrimpField] for an array and a field for anything else.
    The dispatch completes as soon as no row is [null] or [undefined], and
    when the rest is made of Subtrees alone the parent is rendered as its
    heading, or its card, over one [ShrimpField] per Subtree, in order. *)
Theorem shrimp_children_bypass_Header pid (fields : gmap string value)
    (rest : list value) level history :
  fields !! "tag" = Some (VStr "shrimp") →
  let parent := VArr pid (VObj fields :: rest) in
  let label := default VUndefined (fields !! "value") in
  Header parent level history
  = (children ← childrenFromRest (VStr "shrimp") rest (level + 1) history;
     mret (Fragment (heading level label :: children)))
  ∧ TopLevelPaper parent history
    = (children ← childrenFromRest (VStr "shrimp") rest 3 history;
       mret (ColumnCard label children))
  ∧ (∀ level' pre id elems post,
       rest = pre ++ VArr id elems :: post →
       childrenFromRest (VStr "shrimp") rest level' history
       = (xs ← childrenFromRest (VStr "shrimp") pre level' history;
          ys ← childrenFromRest (VStr "shrimp") post level' history;
          mret (xs ++ Keyed id (ShrimpField (VArr id elems)) :: ys)))
  ∧ (∀ level' out,
       childrenFromRest (VStr "shrimp") rest level' history = Ok out →
       Forall2 (λ row e, ∃ key,
                  get row "id" = Ok key
                  ∧ if Array_isArray row
                    then e = Keyed key (ShrimpField row)
                    else ∃ field, Field row = Ok field ∧ e = Keyed key field)
         rest out)
  ∧ (∀ level' id elems,
       childrenFromRest (VStr "shrimp") [VArr id elems] level' history
       = Ok [Keyed id (ShrimpField (VArr id elems))])
  ∧ (∀ level',
       succeeds (childrenFromRest (VStr "shrimp") rest level' history)
       = forallb has_properties rest)
  ∧ (∀ subtrees : list (value * list value),
       rest = (λ p, VArr p.1 p.2) <$> subtrees →
       let fields_of := (λ p, Keyed p.1 (ShrimpField (VArr p.1 p.2))) <$> subtrees in
       Header parent level history
       = Ok (Fragment (heading level label :: fields_of))
       ∧ TopLevelPaper parent history = Ok (ColumnCard label fields_of)).
Proof.
  intros Htag parent label. subst parent label.
  assert (Header (VArr pid (VObj fields :: rest)) level history
          = (children ← childrenFromRest (VStr "shrimp") rest (level + 1) history;
             mret (Fragment (heading level (default VUndefined (fields !! "value"))
                             :: children)))) as HHeader.
  { cbn [Header]. unfold Header_body. rewrite !get_obj, Htag.
    cbn [default mbind result_bind is_str String.eqb Ascii.eqb Bool.eqb].
    fold (@childrenFromRest History).
    destruct (childrenFromRest _ _ _ _); reflexivity. }
  assert (TopLevelPaper (VArr pid (VObj fields :: rest)) history
          = (children ← childrenFromRest (VStr "shrimp") rest 3 history;
             mret (ColumnCard (default VUndefined (fields !! "value")) children)))
    as HPaper.
  { unfold TopLevelPaper.
    cbn [destructure iterate mbind result_bind mret result_ret fst snd].
    rewrite !get_obj, Htag. cbn [default mbind result_bind].
    destruct (childrenFromRest _ _ _ _); reflexivity. }
  split; [exact HHeader|]. split; [exact HPaper|].
  split; [|split; [|split; [|split; [|]]]].
  - intros level' pre id elems post ->.
    rewrite childrenFromRest_app, (childrenFromRest_cons _ _ post).
    rewrite childrenFromRest_shrimp.
    destruct (childrenFromRest _ pre _ _); [|reflexivity].
    destruct (childrenFromRest _ post _ _); reflexivity.
  - intros level'. clear Htag HHeader HPaper.
    induction rest as [|row rest IH]; intros out H.
    + injection H as <-. constructor.
    + rewrite childrenFromRest_cons in H. inv_bind H. subst out.
      destruct row as [| | | | |id elems|fields']; try discriminate.
      * injection Ha as <-. constructor; [|apply IH; assumption].
        exists VUndefined. split; [reflexivity|].
        exists (Grid 4 None [Text [Lit "Unsupported type: "; JSON_stringify (VBool b)]]).
        split; reflexivity.
      * injection Ha as <-. constructor; [|apply IH; assumption].
        exists VUndefined. split; [reflexivity|].
        exists (Grid 4 None [Text [Lit "Unsupported type: "; JSON_stringify (VNum n)]]).
        split; reflexivity.
      * injection Ha as <-. constructor; [|apply IH; assumption].
        exists VUndefined. split; [reflexivity|].
        exists (Grid 4 None [Text [Lit "Unsupported type: "; JSON_stringify (VStr s)]]).
        split; reflexivity.
      * rewrite childrenFromRest_shrimp in Ha. injection Ha as <-.
        constructor; [|apply IH; assumption].
        exists id. split; reflexivity.
      * rewrite childrenFromRest_field in Ha. inv_bind Ha. subst a.
        constructor; [|apply IH; assumption].
        exists (default VUndefined (fields' !! "id")). split; [reflexivity|].
        exists a1. split; [assumption|reflexivity].
  - intros level' id elems. apply childrenFromRest_shrimp.
  - intros level'. rewrite childrenFromRest_succeeds.
    clear. induction rest as [|row rest IH]; [reflexivity|].
    cbn [forallb]. rewrite IH, childrenFromRest_single_succeeds.
    cbn [is_str String.eqb Ascii.eqb Bool.eqb orb].
    destruct (Array_isArray row); rewrite andb_true_r; reflexivity.
  - intros subtrees -> fields_of. subst fields_of.
    rewrite HHeader, HPaper, !childrenFromRest_shrimp_arrays. split; reflexivity.
Qed.

(** C5, as amended.  When the Section Renderer [Header] is given a Subtree
    whose head is tagged [jupyter-activity], it hands the whole rest, as
    one array, to [JupyterActivity] next to the heading; the dispatcher is
    not run on the rest, whose elements are not looked at (the rendering
    succeeds whatever they are). *)
Theorem Header_jupyter_activity id (fields : gmap string value)
    (rest : list value) level history :
  fields !! "tag" = Some (VStr "jupyter-activity") →
  Header (VArr id (VObj fields :: rest)) level history
  = Ok (Fragment [heading level (default VUndefined (fields !! "value"));
                  JupyterActivity (VArr VUndefined rest)]).
Proof.
  intros Htag. cbn [Header]. unfold Header_body. rewrite !get_obj, Htag.
  reflexivity.
Qed.

(** C6.  A field of type [link] tagged [health] is rendered as a link
    button to the health endpoint [api/jupyter/health] whose label is the
    value of the field. *)
Theorem Field_health_link (fields : gmap string value) :
  fields !! "type" = Some (VStr "link") →
  fields !! "tag" = Some (VStr "health") →
  Field (VObj fields)
  = Ok (LinkButton "api/jupyter/health"
          [Text [Expr (default VUndefined (fields !! "value"))]]).
Proof.
  intros Htype Htag. unfold Field. rewrite !get_obj, Htype, Htag. reflexivity.
Qed.

(** C7.  A field that matches no dispatch rule (its type is not [value]
    and, if its type is [link], its tag is neither [health] nor
    [all-activities]) is rendered as an inline diagnostic: the text
    [Unsupported link: ] for a link and [Unsupported type: ] otherwise,
    followed by the JSON dump of the field.  Nothing is thrown: the
    dispatcher yields the keyed diagnostic for the field, it completes
    whenever it completes on the rows before and after the field, and then
    these rows are rendered as they are without it, the diagnostic standing
    at the position of the field. *)
Theorem Field_unsupported (fields : gmap string value) (head : value)
    (pre post : list value) level history :
  let json := VObj fields in
  let type := default VUndefined (fields !! "type") in
  let tag := default VUndefined (fields !! "tag") in
  let diagnostic :=
    Grid 4 None
      [Text [Lit (if is_str type "link" then "Unsupported link: "
                  else "Unsupported type: ");
             JSON_stringify json]] in
  let key := default VUndefined (fields !! "id") in
  is_str type "value" = false →
  (is_str type "link" = true →
   is_str tag "health" = false ∧ is_str tag "all-activities" = false) →
  Field json = Ok diagnostic
  ∧ childrenFromRest head (pre ++ json :: post) level history
    = (xs ← childrenFromRest head pre level history;
       ys ← childrenFromRest head post level history;
       mret (xs ++ Keyed key diagnostic :: ys))
  ∧ childrenFromRest head [json] level history = Ok [Keyed key diagnostic]
  ∧ succeeds (childrenFromRest head (pre ++ json :: post) level history)
    = succeeds (childrenFromRest head pre level history)
      && succeeds (childrenFromRest head post level history)
  ∧ (∀ xs ys,
       childrenFromRest head pre level history = Ok xs →
       childrenFromRest head post level history = Ok ys →
       childrenFromRest head (pre ++ json :: post) level history
       = Ok (xs ++ Keyed key diagnostic :: ys)).
Proof.
  intros json type tag diagnostic key Hvalue Hlink.
  assert (Field json = Ok diagnostic) as Hfield.
  { unfold Field. subst json. rewrite !get_obj. fold type tag.
    cbn [mbind result_bind]. rewrite Hvalue. subst diagnostic.
    destruct (is_str type "link"); [|reflexivity].
    destruct Hlink as [-> ->]; reflexivity. }
  assert (childrenFromRest head (pre ++ json :: post) level history
          = (xs ← childrenFromRest head pre level history;
             ys ← childrenFromRest head post level history;
             mret (xs ++ Keyed key diagnostic :: ys))) as Hdispatch.
  { rewrite childrenFromRest_app, (childrenFromRest_cons _ _ post).
    subst json. rewrite childrenFromRest_field, Hfield.
    destruct (childrenFromRest _ pre _ _); [|reflexivity].
    destruct (childrenFromRest _ post _ _); reflexivity. }
  split; [exact Hfield|]. split; [exact Hdispatch|].
  split; [|split].
  - subst json. rewrite childrenFromRest_field, Hfield. reflexivity.
  - rewrite Hdispatch.
    destruct (childrenFromRest _ pre _ _); [|reflexivity].
    destruct (childrenFromRest _ post _ _); reflexivity.
  - intros xs ys Hpre Hpost. rewrite Hdispatch, Hpre, Hpost. reflexivity.
Qed.

(** C8, as amended.  The dispatcher maps the rows in order: what it yields
    for a sequence is what it yields for the rows before a row, then for
    that row, then for the rows after it.  A Subtree row under a parent
    that is not tagged [shrimp] yields exactly one separator followed by
    the section that [Header] renders at the same level as the dispatcher
    was given; it is [Header] that dispatches the rest of its section one
    level further down. *)
Theorem childrenFromRest_order_preserving (head : value)
    (pre : list value) (row : value) (post : list value) level history :
  childrenFromRest head (pre ++ row :: post) level history
  = (xs ← childrenFromRest head pre level history;
     here ← childrenFromRest head [row] level history;
     ys ← childrenFromRest head post level history;
     mret (xs ++ here ++ ys))
  ∧ (∀ id elems,
       is_str head "shrimp" = false →
       childrenFromRest head [VArr id elems] level history
       = (section ← Header (VArr id elems) level history;
          mret [Break; Keyed id section]))
  ∧ (∀ id fields rest,
       is_str (default VUndefined (fields !! "tag")) "jupyter-activity" = false →
       Header (VArr id (VObj fields :: rest)) level history
       = (children ← childrenFromRest (default VUndefined (fields !! "tag"))
                       rest (level + 1) history;
          mret (Fragment (heading level (default VUndefined (fields !! "value"))
                          :: children)))).
Proof.
  split; [|split].
  - rewrite childrenFromRest_app, (childrenFromRest_cons _ _ post).
    destruct (childrenFromRest _ pre _ _); [|reflexivity].
    destruct (childrenFromRest _ [row] _ _); [|reflexivity].
    destruct (childrenFromRest _ post _ _); reflexivity.
  - intros id elems Hhead. apply childrenFromRest_section, Hhead.
  - intros id fields rest Htag. cbn [Header]. unfold Header_body.
    rewrite !get_obj. cbn [mbind result_bind]. rewrite Htag.
    fold (@childrenFromRest History).
    destruct (childrenFromRest _ _ _ _); reflexivity.
Qed.

End DispatchClaims.

(** ** The claims at sample documents *)

(** The document [[A, B, C]]: the cards of [B] and [C], in that order, and
    nothing of [A]. *)
Example Schedule_doc_three :
  rendered (Schedule doc_three tt)
  = Ok (ColumnList
          [Keyed (VStr "0,1")
             (ColumnCard (VStr "Diary")
                [Keyed (VStr "0,1,1")
                   (LinkButton "api/jupyter/health" [Text [Expr (VStr "OK")]])]);
           Keyed (VStr "0,2")
             (ColumnCard (VStr "Fitness")
                [Keyed (VStr "0,2,1")
                   (ShrimpField (setId "0,2,1" (arr [head_node "ctl" "CTL"])))])]).
Proof. reflexivity. Qed.

(** A field of a type that is not known. *)
Example Field_other_type :
  Field (obj [("type", VStr "other")])
  = Ok (Grid 4 None
          [Text [Lit "Unsupported type: ";
                 JSON_stringify (obj [("type", VStr "other")])]]).
Proof. reflexivity. Qed.

(** A row that is [null] makes the dispatcher throw: [row.id] is read. *)
Example childrenFromRest_null_row :
  childrenFromRest (VStr "diary") [VNull] 3 tt = TypeError.
Proof. reflexivity. Qed.

(** The sections of [doc_nested] as the id-assignment pass leaves them. *)
Lemma doc_nested_sections :
  let activities' := setId "0,1" activities in
  let ride' := setId "0,1,1" ride in
  let climbs' := setId "0,1,1,2" climbs in
  activities' ∈ tail (elems_of (json_after (Schedule doc_nested tt)))
  ∧ nested activities' 1 ride'
  ∧ nested activities' 2 climbs'.
Proof.
  assert (nested (setId "0,1" activities) 1 (setId "0,1,1" ride)) as Hride.
  { apply nested_child. exists (VStr "activities").
    repeat split. left. }
  split; [left|]. split; [exact Hride|].
  apply (nested_deeper _ 1 (setId "0,1,1" ride) _ (VStr "ride") Hride);
    [reflexivity..|].
  exists (VStr "ride"). repeat split. right. left.
Qed.

Lemma heading_level_of_nested_section_witness :
  ∃ papers,
    rendered (Schedule doc_nested tt) = Ok (ColumnList papers)
    ∧ ∀ top k s,
        top ∈ tail (elems_of (json_after (Schedule doc_nested tt))) →
        nested top k s →
        heading_at tt (ColumnList papers) s (2 + k).
Proof.
  apply (heading_level_of_nested_section doc_nested tt). reflexivity.
Defined.

(** C2, as stated, fails: in [doc_nested], the section [climbs] lies two
    levels below the top-level section [activities], and its heading is
    rendered at level 4; it is not rendered at level 5 = 3 + 2 anywhere in
    the output. *)
Lemma heading_level_not_three_plus_distance :
  Document doc_nested = true
  ∧ ∃ papers top s,
      rendered (Schedule doc_nested tt) = Ok (ColumnList papers)
      ∧ top ∈ tail (elems_of (json_after (Schedule doc_nested tt)))
      ∧ nested top 2 s
      ∧ heading_variants (ColumnList papers) = ["h3"; "h4"]
      ∧ ¬ heading_at tt (ColumnList papers) s (3 + 2).
Proof.
  split; [reflexivity|].
  destruct doc_nested_sections as (Htop & _ & Hclimbs).
  eexists _, _, _. split; [vm_compute; reflexivity|].
  split; [exact Htop|]. split; [exact Hclimbs|].
  match goal with
  | |- heading_variants ?out = _ ∧ _ =>
      assert (heading_variants out = ["h3"; "h4"]) as Hvariants
        by (vm_compute; reflexivity)
  end.
  split; [exact Hvariants|].
  intros (id & label & children & _ & _ & _ & Hin).
  apply (heading_variants_subelements _ _ "h5") in Hin; [|left].
  rewrite Hvariants in Hin.
  repeat (apply elem_of_cons in Hin as [Hin|Hin]; [discriminate Hin|]).
  inversion Hin.
Qed.

Lemma shrimp_children_bypass_Header_witness :
  Header (arr [head_node "shrimp" "Fitness"; arr [head_node "ctl" "CTL"]]) 3 tt
  = Ok (Fragment
          [heading 3 (VStr "Fitness");
           Keyed VUndefined (ShrimpField (arr [head_node "ctl" "CTL"]))])
  ∧ TopLevelPaper (arr [head_node "shrimp" "Fitness"; arr [head_node "ctl" "CTL"]]) tt
    = Ok (ColumnCard (VStr "Fitness")
            [Keyed VUndefined (ShrimpField (arr [head_node "ctl" "CTL"]))]).
Proof.
  exact (proj2 (proj2 (proj2 (proj2 (proj2 (proj2
           (shrimp_children_bypass_Header VUndefined
              (list_to_map [("tag", VStr "shrimp"); ("value", VStr "Fitness")])
              [arr [head_node "ctl" "CTL"]] 3 tt eq_refl))))))
           [(VUndefined, [head_node "ctl" "CTL"])] eq_refl).
Defined.

Lemma Header_jupyter_activity_witness :
  Header (arr [head_node "jupyter-activity" "Jupyter"; jupyter_field; VNull]) 3 tt
  = Ok (Fragment [heading 3 (VStr "Jupyter");
                  JupyterActivity (arr [jupyter_field; VNull])]).
Proof.
  exact (Header_jupyter_activity VUndefined
           (list_to_map [("tag", VStr "jupyter-activity"); ("value", VStr "Jupyter")])
           [jupyter_field; VNull] 3 tt eq_refl).
Defined.

(** C5, as stated, fails: a top-level Subtree tagged [jupyter-activity] is
    rendered by [TopLevelPaper], which dispatches on the elements of its
    rest one by one; no [JupyterActivity] is rendered for it. *)
Lemma top_level_jupyter_activity_dispatched :
  Document doc_jupyter = true
  ∧ get (head_of (nth 1 (elems_of doc_jupyter) VUndefined)) "tag"
    = Ok (VStr "jupyter-activity")
  ∧ ∃ out,
      rendered (Schedule doc_jupyter tt) = Ok out
      ∧ out = ColumnList
                [Keyed (VStr "0,1")
                   (ColumnCard (VStr "Jupyter")
                      [Keyed (VStr "0,1,1")
                         (SummaryField (setId "0,1,1" jupyter_field))])]
      ∧ ∀ payload, JupyterActivity payload ∉ subelements out.
Proof.
  split; [reflexivity|]. split; [reflexivity|].
  eexists. split; [reflexivity|]. split; [reflexivity|].
  intros payload Hin. simpl in Hin.
  repeat (apply elem_of_cons in Hin as [Hin|Hin]; [discriminate Hin|]).
  inversion Hin.
Qed.

Lemma Field_health_link_witness :
  Field (obj [("type", VStr "link"); ("tag", VStr "health"); ("value", VStr "OK")])
  = Ok (LinkButton "api/jupyter/health" [Text [Expr (VStr "OK")]]).
Proof.
  exact (Field_health_link
           (list_to_map [("type", VStr "link"); ("tag", VStr "health");
                         ("value", VStr "OK")]) eq_refl eq_refl).
Defined.

Lemma Field_unsupported_witness :
  let json := obj [("type", VStr "link"); ("tag", VStr "unknown-tag")] in
  let diagnostic :=
    Grid 4 None [Text [Lit "Unsupported link: "; JSON_stringify json]] in
  Field json = Ok diagnostic
  ∧ childrenFromRest (VStr "diary") [jupyter_field; json; jupyter_field] 3 tt
    = Ok [Keyed VUndefined (SummaryField jupyter_field);
          Keyed VUndefined diagnostic;
          Keyed VUndefined (SummaryField jupyter_field)].
Proof.
  pose (facts := Field_unsupported
           (list_to_map [("type", VStr "link"); ("tag", VStr "unknown-tag")])
           (VStr "diary") [jupyter_field] [jupyter_field] 3 tt
           eq_refl (λ _, conj eq_refl eq_refl)).
  exact (conj (proj1 facts)
           (proj2 (proj2 (proj2 (proj2 facts))) _ _ eq_refl eq_refl)).
Defined.

Lemma childrenFromRest_order_preserving_witness :
  childrenFromRest (VStr "ride") [climbs] 3 tt
  = (section ← Header climbs 3 tt; mret [Break; Keyed VUndefined section]).
Proof.
  exact (proj1 (proj2 (childrenFromRest_order_preserving
                         (VStr "ride") [] VNull [] 3 tt))
           VUndefined (elems_of climbs) eq_refl).
Defined.

(** C8, as stated, fails: the section of a Subtree row is not rendered one
    level below the level the dispatcher was given.  At level 3 the row
    [climbs] is rendered with its heading at level 3, which is not what
    [Header] renders at level 4. *)
Lemma dispatched_section_not_one_deeper :
  is_str (VStr "ride") "shrimp" = false
  ∧ Array_isArray climbs = true
  ∧ childrenFromRest (VStr "ride") [climbs] 3 tt
    ≠ (section ← Header climbs (3 + 1) tt; mret [Break; Keyed VUndefined section])
  ∧ ∃ children,
      childrenFromRest (VStr "ride") [climbs] 3 tt
      = Ok [Break; Keyed VUndefined (Fragment (heading 3 (VStr "Climbs") :: children))].
Proof.
  split; [reflexivity|]. split; [reflexivity|]. split.
  - vm_compute. discriminate.
  - eexists. vm_compute. reflexivity.
Qed.

(** * Further properties of the renderer *)

(** ** Where the renderer throws *)

(** X1.  [Field] throws on [null] and [undefined], which have no [type]
    to read, and on nothing else. *)
Theorem Field_throws_iff (json : value) :
  Field json = TypeError ↔ json = VNull ∨ json = VUndefined.
Proof.
  split.
  - destruct json as [| | | | | |fields]; auto; try discriminate.
    destruct (Field_record fields) as [e ->]. discriminate.
  - intros [->| ->]; reflexivity.
Qed.

(** [Field] renders no heading. *)
Lemma Field_no_heading json e : Field json = Ok e → heading_variants e = [].
Proof.
  unfold Field. intros H. inv_bind H.
  repeat (case_match; inv_bind H; subst; try reflexivity).
Qed.

Section ThrowFacts.
Context {History : Type}.
Implicit Types (history : History) (level : nat).

(** What a single row yields. *)
Lemma childrenFromRest_single head row level history pushed :
  childrenFromRest head [row] level history = Ok pushed →
  ∃ id, get row "id" = Ok id
    ∧ ((Array_isArray row = true ∧ is_str head "shrimp" = true
        ∧ pushed = [Keyed id (ShrimpField row)])
       ∨ (Array_isArray row = true ∧ is_str head "shrimp" = false
          ∧ ∃ section, Header row level history = Ok section
                       ∧ pushed = [Break; Keyed id section])
       ∨ (Array_isArray row = false
          ∧ ∃ field, Field row = Ok field ∧ pushed = [Keyed id field])).
Proof.
  unfold childrenFromRest. cbn [childrenFromRest_with]. intros H.
  inv_bind H. injection Ha0 as <-. subst pushed. rewrite app_nil_r.
  destruct (Array_isArray row) eqn:Harr.
  - destruct (is_str head "shrimp") eqn:Hshrimp; inv_bind Ha; subst a.
    + eexists. split; [eassumption|]. left. auto.
    + eexists. split; [eassumption|]. right. left. eauto 6.
  - inv_bind Ha. subst a. eexists. split; [eassumption|]. right. right. eauto.
Qed.

(** X2.  The dispatcher completes exactly when it completes on each row
    alone: one row that throws makes the whole dispatch throw, wherever it
    stands. *)
Theorem childrenFromRest_throws_iff (head : value) (rest : list value)
    level history :
  childrenFromRest head rest level history = TypeError
  ↔ ∃ row, row ∈ rest ∧ childrenFromRest head [row] level history = TypeError.
Proof.
  induction rest as [|row rest IH].
  - split; [discriminate|]. intros (row & Hin & _). inversion Hin.
  - rewrite childrenFromRest_cons.
    destruct (childrenFromRest head [row] level history) as [xs|] eqn:Hrow.
    + cbn [mbind result_bind].
      destruct (childrenFromRest head rest level history) as [ys|] eqn:Hrest.
      * split; [discriminate|]. intros (row' & Hin & Hthrow).
        apply elem_of_cons in Hin as [->|Hin]; [congruence|].
        assert (Ok ys = TypeError) as Habs by (apply IH; eauto).
        discriminate Habs.
      * split; [|reflexivity]. intros _.
        destruct (proj1 IH eq_refl) as (row' & Hin & Hthrow).
        exists row'. split; [right; assumption|assumption].
    + split; [|reflexivity]. intros _. exists row. split; [left|assumption].
Qed.

End ThrowFacts.

(** ** Which documents are rendered *)

Section RenderableFacts.
Context {History : Type}.
Implicit Types (history : History) (level : nat).

Lemma childrenFromRest_dispatchable tag rest level history :
  Forall (λ row, Array_isArray row = true →
                 succeeds (Header row level history) = renderable row) rest →
  succeeds (childrenFromRest tag rest level history) = dispatchable tag rest.
Proof.
  intros H. rewrite childrenFromRest_succeeds.
  unfold dispatchable, dispatchable_with.
  induction H as [|row rows Hrow _ IH]; [reflexivity|].
  cbn [forallb]. rewrite IH, childrenFromRest_single_succeeds. do 2 f_equal.
  destruct (Array_isArray row); [|reflexivity]. rewrite Hrow; reflexivity.
Qed.

Lemma Header_succeeds s : ∀ level history,
  Array_isArray s = true →
  succeeds (Header s level history) = renderable s.
Proof.
  induction s as [| | | | |id elems IH|fields] using value_rows_ind;
    try discriminate.
  intros level history _. destruct elems as [|head rest]; [reflexivity|].
  apply Forall_cons in IH as [_ IH].
  cbn [Header renderable]. unfold Header_body. fold (@childrenFromRest History).
  rewrite succeeds_bind. unfold tag_of.
  destruct head as [| | | | |hid helems|hfields]; try reflexivity;
    cbn [get has_properties andb];
    (destruct (is_str _ "jupyter-activity"); [reflexivity|]);
    rewrite succeeds_bind;
    match goal with
    | |- context [childrenFromRest ?tag rest (level + 1) history] =>
        pose proof (childrenFromRest_dispatchable tag rest (level + 1) history) as Hd;
        unfold dispatchable in Hd;
        destruct (childrenFromRest tag rest (level + 1) history)
    end;
    cbn [orb]; rewrite <- Hd; try reflexivity;
    (eapply Forall_impl; [exact IH|]; intros row Hrow Harr; apply Hrow, Harr).
Qed.

(** X3.  [Header] renders an array exactly when the array is
    [renderable]: whether a section is rendered depends neither on the
    level nor on the history, and an empty array, or one whose head is
    [null] or [undefined], is never rendered. *)
Theorem Header_succeeds_iff_renderable id (elems : list value) level history :
  succeeds (Header (VArr id elems) level history) = renderable (VArr id elems).
Proof. apply Header_succeeds. reflexivity. Qed.

(** [TopLevelPaper] renders a row exactly when it is [top_renderable]:
    unlike [Header] it dispatches the rest of a [jupyter-activity] too. *)
Lemma TopLevelPaper_succeeds (row : value) history :
  succeeds (TopLevelPaper row history) = top_renderable row.
Proof.
  unfold TopLevelPaper, top_renderable. rewrite succeeds_bind.
  destruct (destructure row) as [[head rest]|]; [|reflexivity].
  cbn [fst snd]. rewrite succeeds_bind. unfold tag_of.
  pose proof (get_succeeds head "tag") as Htag.
  pose proof (get_succeeds head "value") as Hvalue.
  destruct (get head "tag") as [tag|]; simpl in Htag; rewrite <- Htag;
    [|reflexivity].
  cbn [andb]. rewrite succeeds_bind.
  rewrite <- (childrenFromRest_dispatchable tag rest 3 history).
  - destruct (childrenFromRest tag rest 3 history); [|reflexivity].
    rewrite succeeds_bind. destruct (get head "value"); [reflexivity|].
    rewrite <- Htag in Hvalue. discriminate.
  - apply Forall_forall. intros r _ Harr. apply Header_succeeds, Harr.
Qed.

Lemma top_level_papers_succeeds rows history :
  succeeds (top_level_papers rows history) = forallb top_renderable rows.
Proof.
  induction rows as [|row rows IH]; [reflexivity|].
  cbn [top_level_papers forallb]. rewrite succeeds_bind.
  rewrite <- IH, <- (TopLevelPaper_succeeds row history).
  destruct (get row "id") as [id|] eqn:Hid.
  - rewrite succeeds_bind. destruct (TopLevelPaper row history); [|reflexivity].
    rewrite succeeds_bind. destruct (top_level_papers rows history); reflexivity.
  - destruct row; try discriminate; reflexivity.
Qed.

(** X4.  [TopLevelPaper] renders a row exactly when the row is
    [top_renderable]: it can be destructured, a tag can be read from its
    head, and its rest can be dispatched, the rest of a [jupyter-activity]
    too; the history plays no part.  Mapping [TopLevelPaper] over rows
    completes exactly when every row is [top_renderable]: one row that is
    not makes the whole map throw. *)
Theorem TopLevelPaper_succeeds_iff (row : value) (rows : list value) history :
  succeeds (TopLevelPaper row history) = top_renderable row
  ∧ succeeds (top_level_papers rows history) = forallb top_renderable rows.
Proof.
  split; [apply TopLevelPaper_succeeds|apply top_level_papers_succeeds].
Qed.

(** X5.  A loaded input that is not an array makes [Schedule] throw: only
    an array has a [slice] whose result has a [map]. *)
Theorem Schedule_throws_on_non_array (json : value) history :
  json ≠ VNull → Array_isArray json = false →
  rendered (Schedule json history) = TypeError.
Proof.
  intros Hnull Harr. rewrite Schedule_not_null by assumption.
  destruct json; try reflexivity; discriminate.
Qed.

End RenderableFacts.

(** ** How many elements the dispatcher yields *)

Section CountFacts.
Context {History : Type}.
Implicit Types (history : History) (level : nat).

(** X7.  The dispatcher yields one element per row and, unless the parent
    is tagged [shrimp], one separator more for each row that is an array;
    these are all the separators among what it yields. *)
Theorem childrenFromRest_length (head : value) (rest : list value)
    level history (children : list element) :
  childrenFromRest head rest level history = Ok children →
  let sections :=
    if is_str head "shrimp" then 0
    else length (List.filter Array_isArray rest) in
  length children = length rest + sections
  ∧ length (List.filter is_Break children) = sections.
Proof.
  revert children. induction rest as [|row rest IH]; intros children H.
  - injection H as <-. destruct (is_str head "shrimp"); split; reflexivity.
  - rewrite childrenFromRest_cons in H. inv_bind H. subst children.
    destruct (IH _ Ha0) as [Hlen Hbreaks]. cbn zeta in *.
    rewrite List.filter_app, !length_app, Hlen, Hbreaks. cbn [List.filter length].
    destruct (childrenFromRest_single _ _ _ _ _ Ha)
      as (id & _ & [(Harr & -> & ->)|[(Harr & -> & section & _ & ->)
                                      |(Harr & field & _ & ->)]]);
      rewrite ?Harr; cbn [List.filter is_Break length];
      destruct (is_str head "shrimp"); cbn [length]; lia.
Qed.

End CountFacts.

(** ** The levels of the headings *)

Lemma depth_setId v : ∀ id, depth (setId id v) = depth v.
Proof.
  induction v as [| | | | |aid elems IH|fields] using value_rows_ind;
    intros id; try reflexivity.
  cbn [setId depth]. f_equal.
  assert (∀ index,
             foldr (λ row deepest, depth row `max` deepest) 0
               (stamp_rows setId id index elems)
             = foldr (λ row deepest, depth row `max` deepest) 0 elems) as H;
    [|apply H].
  induction IH as [|row rows Hrow _ IHrows]; intros index; simpl.
  - reflexivity.
  - rewrite Hrow, IHrows. reflexivity.
Qed.

Lemma depth_row_le (row : value) (rows : list value) :
  row ∈ rows → depth row ≤ foldr (λ row deepest, depth row `max` deepest) 0 rows.
Proof.
  induction 1 as [row rows|row row' rows _ IH]; simpl; lia.
Qed.

Lemma depth_tail_le (rows : list value) :
  foldr (λ row deepest, depth row `max` deepest) 0 (tail rows)
  ≤ foldr (λ row deepest, depth row `max` deepest) 0 rows.
Proof. destruct rows; simpl; lia. Qed.

(** What a string yields holds no array. *)
Lemma depth_chars (s : string) :
  foldr (λ row deepest, depth row `max` deepest) 0
    (match map (λ c, VStr (String c EmptyString)) (String.list_ascii_of_string s) with
     | [] => (VUndefined, [])
     | head :: rest => (head, rest)
     end).2 = 0.
Proof.
  assert (∀ cs : list Ascii.ascii,
             foldr (λ row deepest, depth row `max` deepest) 0
               (map (λ c, VStr (String c EmptyString)) cs) = 0) as H
    by (induction cs as [|c cs IH]; [reflexivity|exact IH]).
  destruct (String.list_ascii_of_string s) as [|c cs]; [reflexivity|apply H].
Qed.

Section LevelFacts.
Context {History : Type}.
Implicit Types (history : History) (level : nat).

Lemma childrenFromRest_levels head rest level history children :
  Forall (λ row, ∀ out, Array_isArray row = true →
                        Header row level history = Ok out →
                        ∀ variant, variant ∈ heading_variants out →
                                   level_within level (level + depth row) variant)
    rest →
  childrenFromRest head rest level history = Ok children →
  ∀ variant,
    variant ∈ flat_map heading_variants children →
    level_within level
      (level + foldr (λ row deepest, depth row `max` deepest) 0 rest) variant.
Proof.
  intros Hrows. revert children.
  induction Hrows as [|row rows Hrow _ IH]; intros children H variant Hin.
  - injection H as <-. inversion Hin.
  - rewrite childrenFromRest_cons in H. inv_bind H. subst children.
    rewrite flat_map_app in Hin. apply elem_of_app in Hin as [Hin|Hin].
    + destruct (childrenFromRest_single _ _ _ _ _ Ha)
        as (id & _ & [(_ & _ & ->)|[(Harr & _ & section & Hsec & ->)
                                    |(_ & field & Hfield & ->)]]).
      * inversion Hin.
      * cbn [flat_map heading_variants] in Hin. rewrite !app_nil_r in Hin.
        destruct (Hrow section Harr Hsec variant Hin) as (l & Hl & ->).
        exists l. split; [simpl; lia|reflexivity].
      * cbn [flat_map heading_variants] in Hin.
        rewrite (Field_no_heading _ _ Hfield) in Hin. inversion Hin.
    + destruct (IH _ Ha0 variant Hin) as (l & Hl & ->).
      exists l. split; [simpl; lia|reflexivity].
Qed.

Lemma Header_levels s : ∀ level history out,
  Array_isArray s = true →
  Header s level history = Ok out →
  ∀ variant, variant ∈ heading_variants out →
             level_within level (level + depth s) variant.
Proof.
  induction s as [| | | | |id elems IH|fields] using value_rows_ind;
    try discriminate.
  intros level history out _ H variant Hin.
  rewrite Header_array in H. unfold Header_body in H.
  fold (@childrenFromRest History) in H. inv_bind H. subst out.
  cbn [heading_variants flat_map heading] in Hin.
  apply elem_of_cons in Hin as [->|Hin].
  { exists level. split; [simpl; lia|reflexivity]. }
  destruct (is_str a "jupyter-activity").
  { injection Ha0 as <-. inversion Hin. }
  assert (Forall (λ row, ∀ out, Array_isArray row = true →
                    Header row (level + 1) history = Ok out →
                    ∀ variant, variant ∈ heading_variants out →
                      level_within (level + 1) (level + 1 + depth row) variant)
            (tail elems)) as Hrows.
  { apply Forall_forall. intros row Hrow out Harr Hout.
    rewrite Forall_forall in IH.
    assert (row ∈ elems) as Hrow' by (destruct elems; [inversion Hrow|right; exact Hrow]).
    apply (IH row Hrow' (level + 1) history out Harr Hout). }
  destruct (childrenFromRest_levels _ _ _ _ _ Hrows Ha0 variant Hin)
    as (l & Hl & ->).
  pose proof (depth_tail_le elems). exists l. split; [simpl; lia|reflexivity].
Qed.

(** X8.  Every heading below a section that [Header] renders at a level
    is at that level or deeper, and less deep than the level plus the
    depth to which arrays are nested in the section. *)
Theorem Header_heading_levels id (elems : list value) level history out :
  Header (VArr id elems) level history = Ok out →
  Forall (level_within level (level + depth (VArr id elems)))
    (heading_variants out).
Proof.
  intros H. apply Forall_forall. intros variant Hin.
  exact (Header_levels (VArr id elems) level history out eq_refl H variant Hin).
Qed.

Lemma TopLevelPaper_levels row history out :
  TopLevelPaper row history = Ok out →
  ∀ variant, variant ∈ heading_variants out →
             level_within 3 (2 + depth row) variant.
Proof.
  unfold TopLevelPaper. intros H variant Hin. inv_bind H. subst out.
  cbn [heading_variants] in Hin.
  assert (Forall (λ r, ∀ out, Array_isArray r = true →
                    Header r 3 history = Ok out →
                    ∀ variant, variant ∈ heading_variants out →
                      level_within 3 (3 + depth r) variant) a.2) as Hrows.
  { apply Forall_forall. intros r _ out Harr Hout.
    exact (Header_levels r 3 history out Harr Hout). }
  destruct (childrenFromRest_levels _ _ _ _ _ Hrows Ha1 variant Hin)
    as (l & Hl & ->).
  exists l. split; [|reflexivity].
  destruct row as [| | | | s |id elems|]; try discriminate.
  - injection Ha as <-. cbn [depth].
    rewrite depth_chars in Hl. lia.
  - injection Ha as <-. cbn [depth].
    pose proof (depth_tail_le elems).
    destruct elems as [|head rest]; cbn [snd tail] in *; simpl in Hl |- *; lia.
Qed.

(** X9.  Every heading [Schedule] renders for a document is at level 3
    or deeper, and no deeper than arrays are nested in the document: there
    is never a heading at level 1 or 2. *)
Theorem Schedule_heading_levels (json : value) history out :
  rendered (Schedule json history) = Ok out →
  Forall (level_within 3 (1 + depth json)) (heading_variants out).
Proof.
  intros H. destruct json as [| | | | |id elems|]; try discriminate.
  { injection H as <-. constructor. }
  rewrite Schedule_array in H. cbn [rendered] in H. inv_bind H. subst out.
  apply top_level_papers_rows in Ha.
  apply Forall_forall. intros variant Hin. cbn [heading_variants] in Hin.
  assert (∀ row, row ∈ tail (stamp_rows setId "0" 0 elems) →
                 depth row < depth (VArr id elems)) as Hdepth.
  { intros row Hrow.
    assert (row ∈ stamp_rows setId "0" 0 elems) as Hrow'
      by (destruct (stamp_rows _ _ _ _); [inversion Hrow|right; exact Hrow]).
    apply depth_row_le in Hrow'.
    rewrite <- (depth_setId (VArr id elems) "0"). cbn [setId depth]. lia. }
  induction Ha as [|row paper rows papers Hrow _ IH].
  - inversion Hin.
  - cbn [flat_map] in Hin. apply elem_of_app in Hin as [Hin|Hin].
    + destruct Hrow as (key & header & children & _ & Hpaper & ->).
      destruct (TopLevelPaper_levels _ _ _ Hpaper variant Hin) as (l & Hl & ->).
      specialize (Hdepth row ltac:(left)).
      exists l. split; [lia|reflexivity].
    + apply IH; [exact Hin|]. intros r Hr. apply Hdepth. right. exact Hr.
Qed.

End LevelFacts.

(** ** The further properties at sample documents *)

Lemma Schedule_throws_on_non_array_witness :
  rendered (Schedule (VStr "2020-03-01") tt) = TypeError.
Proof.
  apply (Schedule_throws_on_non_array (VStr "2020-03-01") tt).
  - discriminate.
  - reflexivity.
Defined.

Lemma childrenFromRest_length_witness :
  ∃ children,
    childrenFromRest (VStr "ride") (tail (elems_of ride)) 3 tt = Ok children
    ∧ length children = 3
    ∧ length (List.filter is_Break children) = 1.
Proof.
  eexists. split; [reflexivity|].
  exact (childrenFromRest_length (VStr "ride") (tail (elems_of ride)) 3 tt _ eq_refl).
Defined.

Lemma Header_heading_levels_witness :
  ∃ out,
    Header ride 3 tt = Ok out
    ∧ Forall (level_within 3 5) (heading_variants out).
Proof.
  eexists. split; [reflexivity|].
  exact (Header_heading_levels VUndefined (elems_of ride) 3 tt _ eq_refl).
Defined.

Lemma Schedule_heading_levels_witness :
  ∃ out,
    rendered (Schedule doc_nested tt) = Ok out
    ∧ Forall (level_within 3 5) (heading_variants out).
Proof.
  eexists. split; [reflexivity|].
  exact (Schedule_heading_levels doc_nested tt _ eq_refl).
Defined.
